(** * generate_icons.py: the tray-icon renderer

    A shallow embedding of [create_diamond] and of the four-line driver
    that follows it in [generate_icons.py].

    Python integers are [Z]; [//] is [Z.div] (floor division, the divisors
    here are the positive literals 2, 4, 6 and 10) and [max] is [Z.max].
    An RGBA colour is the 4-tuple the script writes.  The image buffer is a
    list of rows of colours.  [ImageDraw.Draw(img)] draws into [img] in
    place: the drawing calls below take the image and return the updated
    image, and [create_diamond] returns the image it has threaded through.

    The imaging library is not part of the script.  What it paints for a
    polygon or an ellipse is a parameter: the class [Rasterizer] gives, for
    a shape, the set of pixel coordinates it covers.  [Image_new] grants
    every request for a canvas; the limits of the library's allocation are
    in [Image_new_on], under which [create_diamond_on] reads the same body.
    Everything the script itself computes (sizes, vertices, the badge box,
    the order of the drawing calls, the file names) is translated from the
    script. *)

From stdpp Require Import base tactics option list strings.
From Stdlib Require Import ZArith Lia.

Local Open Scope Z_scope.

(** ** Exceptions and results *)

Inductive exn : Type :=
  | ValueError
  | TypeError
  | OverflowError
  | MemoryError.

Inductive result (A : Type) : Type :=
  | Ok (a : A)
  | Raise (e : exn).
Arguments Ok {A} a.
Arguments Raise {A} e.

#[global] Instance result_ret : MRet result := fun _ a => Ok a.
#[global] Instance result_bind : MBind result := fun _ _ f m =>
  match m with
  | Ok a => f a
  | Raise e => Raise e
  end.

(** ** Colours, points and images *)

Definition Color : Type := Z * Z * Z * Z.
Definition Point : Type := Z * Z.

Definition transparent : Color := (0, 0, 0, 0).
Definition white : Color := (255, 255, 255, 255).
Definition green : Color := (0, 255, 0, 255).

Record Image : Type := mkImage {
  im_mode : string;
  im_size : Z * Z;              (* (width, height) *)
  im_data : list (list Color)   (* rows, top to bottom *)
}.

(** [Image.new(mode, size, color)]: a buffer of [height] rows of [width]
    pixels, all of colour [color]; a negative side is refused. *)
Definition Image_new (mode : string) (size : Z * Z) (color : Color)
  : result Image :=
  let '(w, h) := size in
  if (w <? 0) || (h <? 0) then Raise ValueError
  else Ok (mkImage mode size
             (replicate (Z.to_nat h) (replicate (Z.to_nat w) color))).

(** Reading a pixel; [None] outside the buffer. *)
Definition getpixel (im : Image) (xy : Point) : option Color :=
  let '(x, y) := xy in
  if (0 <=? x) && (0 <=? y)
  then row ← im_data im !! Z.to_nat y; row !! Z.to_nat x
  else None.

(** The invariant of a buffer: [height] rows of [width] pixels. *)
Definition wf_image (im : Image) : Prop :=
  length (im_data im) = Z.to_nat (im_size im).2 ∧
  Forall (λ row, length row = Z.to_nat (im_size im).1) (im_data im).

(** Filling a shape: every pixel of the buffer that the shape covers takes
    the fill colour, the others keep theirs.  Coordinates outside the
    buffer are never written (the drawing is clipped to the image). *)
Definition paint (cover : Point → bool) (fill : Color) (im : Image) : Image :=
  mkImage (im_mode im) (im_size im)
    (imap (λ y row,
       imap (λ x c, if cover (Z.of_nat x, Z.of_nat y) then fill else c) row)
       (im_data im)).

(** ** The drawing primitives of the imaging library *)

Class Rasterizer : Type := {
  (** pixels covered by the filled polygon through the given vertices *)
  polygon_mask : list Point → Point → bool;
  (** pixels covered by the filled ellipse inscribed in the box
      [(x0, y0, x1, y1)] *)
  ellipse_mask : Z * Z * Z * Z → Point → bool
}.

Section Drawing.
Context `{R : Rasterizer}.

(** [draw.polygon(xy, fill=...)] *)
Definition ImageDraw_polygon (img : Image) (xy : list Point) (fill : Color)
  : result Image :=
  if (length xy <? 2)%nat then Raise TypeError
  else Ok (paint (polygon_mask xy) fill img).

(** [draw.ellipse(xy, fill=...)] with [xy] a flat list [x0, y0, x1, y1]. *)
Definition ImageDraw_ellipse (img : Image) (xy : list Z) (fill : Color)
  : result Image :=
  match xy with
  | [x0; y0; x1; y1] =>
      if (x1 <? x0) || (y1 <? y0) then Raise ValueError
      else Ok (paint (ellipse_mask (x0, y0, x1, y1)) fill img)
  | _ => Raise ValueError
  end.

(** ** [create_diamond] *)

Definition margin (size : Z) : Z := size / 4.

Definition points (size : Z) : list Point :=
  [ (size / 2, margin size);             (* Top *)
    (size - margin size, size / 2);      (* Right *)
    (size / 2, size - margin size);      (* Bottom *)
    (margin size, size / 2) ].           (* Left *)

Definition dot_margin (size : Z) : Z := Z.max 2 (size / 10).
Definition dot_size (size : Z) : Z := Z.max 3 (size / 6).

Definition dot_pos (size : Z) : list Z :=
  [ size - dot_margin size - dot_size size;
    size - dot_margin size - dot_size size;
    size - dot_margin size;
    size - dot_margin size ].

Definition create_diamond (size : Z) (has_dot : bool) : result Image :=
  img ← Image_new "RGBA" (size, size) (0, 0, 0, 0);
  img ← ImageDraw_polygon img (points size) (255, 255, 255, 255);
  img ← (if has_dot
         then ImageDraw_ellipse img (dot_pos size) (0, 255, 0, 255)
         else Ok img);
  Ok img.

(** ** The allocation's limits

    [Image_new] grants every request for a canvas.  The library's
    allocation does not: after the sign check, a side that does not fit a C
    [int] is refused with [OverflowError], and a request the machine has no
    memory for with [MemoryError].  Which requests the machine has memory
    for is a parameter, [grant].  [create_diamond_on] is [create_diamond]
    with the call to [Image.new] taken as a parameter, so that it can be read
    under either allocation. *)

Definition c_int_max : Z := 2 ^ 31 - 1.

Definition Image_new_on (grant : Z * Z → bool)
    (mode : string) (size : Z * Z) (color : Color) : result Image :=
  let '(w, h) := size in
  if (w <? 0) || (h <? 0) then Raise ValueError
  else if (c_int_max <? w) || (c_int_max <? h) then Raise OverflowError
  else if grant size then Image_new mode size color
  else Raise MemoryError.

Definition create_diamond_on
    (new : string → Z * Z → Color → result Image)
    (size : Z) (has_dot : bool) : result Image :=
  img ← new "RGBA" (size, size) (0, 0, 0, 0);
  img ← ImageDraw_polygon img (points size) (255, 255, 255, 255);
  img ← (if has_dot
         then ImageDraw_ellipse img (dot_pos size) (0, 255, 0, 255)
         else Ok img);
  Ok img.

End Drawing.

(** ** The driver: four saves and one printed line

    Writing a file and printing a line are the script's only effects; a run
    is the list of effects in the order they happen.  An exception raised by
    a rendering call ends the run. *)

Inductive Event : Type :=
  | Saved (path : string) (im : Image)
  | Printed (line : string).

Definition Image_save (im : Image) (path : string) (out : list Event)
  : list Event := out ++ [Saved path im].

Definition print (line : string) (out : list Event) : list Event :=
  out ++ [Printed line].

Section Script.
Context `{R : Rasterizer}.

(** [create_diamond(22)] leaves [has_dot] at its default, [False]. *)
Definition script (out : list Event) : result (list Event) :=
  im ← create_diamond 22 false;
  let out := Image_save im "tray_iconTemplate.png" out in
  im ← create_diamond 44 false;
  let out := Image_save im "tray_iconTemplate@2x.png" out in
  im ← create_diamond 22 true;
  let out := Image_save im "tray_icon_activeTemplate.png" out in
  im ← create_diamond 44 true;
  let out := Image_save im "tray_icon_activeTemplate@2x.png" out in
  Ok (print "Icons generated successfully." out).

End Script.

(** The files a run leaves behind, in the order they were written. *)
Definition saved_files (out : list Event) : list (string * Z * Z * string) :=
  omap (λ e, match e with
             | Saved path im =>
                 Some (path, (im_size im).1, (im_size im).2, im_mode im)
             | Printed _ => None
             end) out.

Definition printed_lines (out : list Event) : list string :=
  omap (λ e, match e with Printed l => Some l | Saved _ _ => None end) out.

(** ** Plane geometry of a vertex list

    Image coordinates: x grows to the right, y grows downwards.  The script
    lists the diamond's vertices top, right, bottom, left, that is clockwise
    on the screen; for such a list the interior lies on the side of every
    edge where [side] is positive. *)

Definition side (a b p : Point) : Z :=
  (b.1 - a.1) * (p.2 - a.2) - (b.2 - a.2) * (p.1 - a.1).

Definition edges (xy : list Point) : list (Point * Point) :=
  match xy with
  | [] => []
  | p0 :: rest => zip xy (rest ++ [p0])
  end.

(** Every vertex lies on the inner side of every edge. *)
Definition convex_cw (xy : list Point) : bool :=
  forallb (λ e, forallb (λ v, 0 <=? side e.1 e.2 v) xy) (edges xy).

Definition in_bbox (xy : list Point) (p : Point) : bool :=
  existsb (λ a, a.1 <=? p.1) xy && existsb (λ a, p.1 <=? a.1) xy &&
  existsb (λ a, a.2 <=? p.2) xy && existsb (λ a, p.2 <=? a.2) xy.

(** The closed region: edges and vertices included. *)
Definition inside_closed (xy : list Point) (p : Point) : bool :=
  in_bbox xy p && forallb (λ e, 0 <=? side e.1 e.2 p) (edges xy).



(** ** What the proofs ask of the drawing primitives

    A scan-line fill rounds the ends of each row's span to whole pixels, so
    the covered set is pinned down only up to the rounding.  The two laws of
    the polygon fill are asked of the one polygon the script draws at the
    given size, not of polygons in general. *)

Section Laws.
Context `{R : Rasterizer}.




End Laws.

(** A rasterizer with exact rounding: a polygon covers its closed region,
    an ellipse the pixels of its box that satisfy the ellipse inequality
    (centre [((x0+x1)/2, (y0+y1)/2)], axes [x1-x0] and [y1-y0], everything
    scaled by 2 to stay in the integers). *)
Definition exact_ellipse (box : Z * Z * Z * Z) (p : Point) : bool :=
  let '(x0, y0, x1, y1) := box in
  let w := x1 - x0 in
  let h := y1 - y0 in
  (x0 <=? p.1) && (p.1 <=? x1) && (y0 <=? p.2) && (p.2 <=? y1) &&
  ((2 * p.1 - x0 - x1) ^ 2 * h ^ 2 + (2 * p.2 - y0 - y1) ^ 2 * w ^ 2
     <=? w ^ 2 * h ^ 2).

Definition exact_raster : Rasterizer :=
  {| polygon_mask := inside_closed; ellipse_mask := exact_ellipse |}.

(** The badge's bounding box as a predicate on pixels. *)
Definition in_badge_box (size : Z) (p : Point) : Prop :=
  size - dot_margin size - dot_size size ≤ p.1 ≤ size - dot_margin size ∧
  size - dot_margin size - dot_size size ≤ p.2 ≤ size - dot_margin size.

(** The blank canvas [create_diamond] starts from, and the badge box in the
    shape the ellipse primitive takes it. *)
Definition blank (size : Z) : Image :=
  mkImage "RGBA" (size, size)
    (replicate (Z.to_nat size) (replicate (Z.to_nat size) transparent)).

Definition dot_box (size : Z) : Z * Z * Z * Z :=
  (size - dot_margin size - dot_size size,
   size - dot_margin size - dot_size size,
   size - dot_margin size,
   size - dot_margin size).

(** * Properties *)

(** ** The buffer operations *)

Lemma Image_new_ok (m : string) (w h : Z) (c : Color) :
  0 ≤ w → 0 ≤ h →
  Image_new m (w, h) c
  = Ok (mkImage m (w, h) (replicate (Z.to_nat h) (replicate (Z.to_nat w) c))).
Proof.
  intros Hw Hh. unfold Image_new.
  destruct (w <? 0) eqn:Ew; [apply Z.ltb_lt in Ew; lia|].
  destruct (h <? 0) eqn:Eh; [apply Z.ltb_lt in Eh; lia|].
  reflexivity.
Qed.

Lemma getpixel_replicate (m : string) (sz : Z * Z) (w h : nat) (c : Color)
    (x y : Z) :
  0 ≤ x < Z.of_nat w → 0 ≤ y < Z.of_nat h →
  getpixel (mkImage m sz (replicate h (replicate w c))) (x, y) = Some c.
Proof.
  intros Hx Hy. unfold getpixel; simpl.
  destruct (0 <=? x) eqn:Ex; [|apply Z.leb_gt in Ex; lia].
  destruct (0 <=? y) eqn:Ey; [|apply Z.leb_gt in Ey; lia].
  simpl. rewrite lookup_replicate_2 by lia. simpl.
  apply lookup_replicate_2. lia.
Qed.

Lemma getpixel_paint (cover : Point → bool) (fill : Color) (im : Image)
    (x y : Z) :
  getpixel (paint cover fill im) (x, y)
  = (λ c, if cover (x, y) then fill else c) <$> getpixel im (x, y).
Proof.
  unfold getpixel, paint; simpl.
  destruct (0 <=? x) eqn:Ex; [|reflexivity].
  destruct (0 <=? y) eqn:Ey; [|reflexivity].
  apply Z.leb_le in Ex, Ey. simpl.
  rewrite list_lookup_imap.
  destruct (im_data im !! Z.to_nat y) as [row|]; [|reflexivity].
  simpl. rewrite list_lookup_imap.
  destruct (row !! Z.to_nat x) as [c|]; [|reflexivity].
  simpl. rewrite !Z2Nat.id by lia. reflexivity.
Qed.

Lemma getpixel_outside (im : Image) (x y : Z) :
  wf_image im →
  ¬ (0 ≤ x < (im_size im).1 ∧ 0 ≤ y < (im_size im).2) →
  getpixel im (x, y) = None.
Proof.
  intros [Hlen Hrows] Hout. unfold getpixel.
  destruct (0 <=? x) eqn:Ex; [|reflexivity].
  destruct (0 <=? y) eqn:Ey; [|reflexivity].
  apply Z.leb_le in Ex, Ey. simpl.
  destruct (im_data im !! Z.to_nat y) as [row|] eqn:Erow; [|reflexivity].
  simpl. apply lookup_ge_None.
  pose proof (lookup_lt_Some _ _ _ Erow) as Hy.
  rewrite Forall_lookup in Hrows. rewrite (Hrows _ _ Erow). lia.
Qed.

Lemma wf_replicate (m : string) (w h : Z) (c : Color) :
  wf_image (mkImage m (w, h) (replicate (Z.to_nat h) (replicate (Z.to_nat w) c))).
Proof.
  split; simpl.
  - apply length_replicate.
  - apply Forall_replicate, length_replicate.
Qed.

Lemma wf_paint (cover : Point → bool) (fill : Color) (im : Image) :
  wf_image im → wf_image (paint cover fill im).
Proof.
  intros [Hlen Hrows]. split; simpl.
  - rewrite length_imap. exact Hlen.
  - rewrite Forall_lookup in Hrows. apply Forall_lookup.
    intros i row Hrow. rewrite list_lookup_imap in Hrow.
    destruct (im_data im !! i) as [row0|] eqn:E; simpl in Hrow; [|discriminate].
    injection Hrow as <-. rewrite length_imap. eauto.
Qed.

(** ** Arithmetic of the script's integer expressions *)

Lemma margin_bounds (size : Z) :
  0 ≤ size → 0 ≤ margin size ∧ 2 * margin size ≤ size / 2 ∧
             size / 2 + 2 * margin size ≤ size.
Proof. unfold margin. intros H. Z.div_mod_to_equations. lia. Qed.

Lemma margin_pos (size : Z) : 4 ≤ size → 1 ≤ margin size.
Proof. unfold margin. intros H. Z.div_mod_to_equations. lia. Qed.

Lemma dot_bounds (size : Z) : 2 ≤ dot_margin size ∧ 3 ≤ dot_size size.
Proof. unfold dot_margin, dot_size. lia. Qed.

Lemma dot_box_inside (size : Z) :
  10 ≤ size → 0 ≤ size - dot_margin size - dot_size size.
Proof.
  unfold dot_margin, dot_size. intros H. Z.div_mod_to_equations. lia.
Qed.

(** ** What [create_diamond] computes *)

Section Render.
Context `{R : Rasterizer}.

Lemma create_diamond_plain (size : Z) :
  0 ≤ size →
  create_diamond size false
  = Ok (paint (polygon_mask (points size)) white (blank size)).
Proof.
  intros H. unfold create_diamond.
  rewrite Image_new_ok by lia. reflexivity.
Qed.

Lemma create_diamond_active (size : Z) :
  0 ≤ size →
  create_diamond size true
  = Ok (paint (ellipse_mask (dot_box size)) green
          (paint (polygon_mask (points size)) white (blank size))).
Proof.
  intros H. unfold create_diamond.
  rewrite Image_new_ok by lia. simpl.
  pose proof (dot_bounds size) as [_ Hs].
  destruct (_ <? _) eqn:E; [apply Z.ltb_lt in E; lia|].
  reflexivity.
Qed.

Lemma create_diamond_ok (size : Z) (has_dot : bool) :
  0 ≤ size →
  ∃ img, create_diamond size has_dot = Ok img ∧
         im_mode img = "RGBA" ∧ im_size img = (size, size) ∧ wf_image img.
Proof.
  intros H. destruct has_dot.
  - eexists. split; [apply create_diamond_active; lia|].
    repeat split; try reflexivity; repeat apply wf_paint; apply wf_replicate.
  - eexists. split; [apply create_diamond_plain; lia|].
    repeat split; try reflexivity; repeat apply wf_paint; apply wf_replicate.
Qed.

Lemma getpixel_blank (size x y : Z) :
  0 ≤ x < size → 0 ≤ y < size → getpixel (blank size) (x, y) = Some transparent.
Proof. intros Hx Hy. apply getpixel_replicate; lia. Qed.

(** Pixel by pixel: the badge where the ellipse covers, else the diamond
    where the polygon covers, else the untouched background. *)
Lemma create_diamond_pixel (size : Z) (has_dot : bool) (img : Image) (x y : Z) :
  create_diamond size has_dot = Ok img →
  0 ≤ x < size → 0 ≤ y < size →
  getpixel img (x, y)
  = Some (if has_dot && ellipse_mask (dot_box size) (x, y) then green
          else if polygon_mask (points size) (x, y) then white
          else transparent).
Proof.
  intros Himg Hx Hy. destruct has_dot.
  - rewrite create_diamond_active in Himg by lia. injection Himg as <-.
    rewrite !getpixel_paint, getpixel_blank by lia. simpl.
    destruct (ellipse_mask _ _); reflexivity.
  - rewrite create_diamond_plain in Himg by lia. injection Himg as <-.
    rewrite getpixel_paint, getpixel_blank by lia. reflexivity.
Qed.

End Render.

Section Claims.
Context `{R : Rasterizer}.

Lemma create_diamond_negative (size : Z) (has_dot : bool) :
  size < 0 → create_diamond size has_dot = Raise ValueError.
Proof.
  intros H. unfold create_diamond, Image_new.
  destruct (size <? 0) eqn:E; [reflexivity|apply Z.ltb_ge in E; lia].
Qed.

Lemma create_diamond_inbounds (size : Z) (has_dot : bool) (img : Image)
    (x y : Z) (c : Color) :
  create_diamond size has_dot = Ok img → getpixel img (x, y) = Some c →
  0 ≤ x < size ∧ 0 ≤ y < size.
Proof.
  intros Himg Hc.
  destruct (Z.lt_ge_cases size 0) as [Hneg|Hpos].
  { rewrite create_diamond_negative in Himg by lia. discriminate. }
  destruct (create_diamond_ok size has_dot Hpos) as (img' & E & _ & Hsz & Hwf).
  rewrite E in Himg. injection Himg as ->.
  destruct (decide (0 ≤ x < size ∧ 0 ≤ y < size)) as [Hin|Hout]; [exact Hin|].
  rewrite getpixel_outside in Hc; [discriminate|exact Hwf|].
  rewrite Hsz. exact Hout.
Qed.



(** C3, as amended: [create_diamond 22 False] returns a 22 x 22 canvas;
    the polygon filled on it has exactly the vertices (11,5), (17,11),
    (11,17), (5,11), since [22 // 4 = 5] and [22 - 5 = 17]; no pixel of the
    canvas is green. *)
Theorem C3_render_22_plain :
  ∃ canvas img,
    Image_new "RGBA" (22, 22) (0, 0, 0, 0) = Ok canvas ∧
    points 22 = [(11, 5); (17, 11); (11, 17); (5, 11)] ∧
    ImageDraw_polygon canvas [(11, 5); (17, 11); (11, 17); (5, 11)]
      (255, 255, 255, 255) = Ok img ∧
    create_diamond 22 false = Ok img ∧
    im_size img = (22, 22) ∧ wf_image img ∧
    ∀ x y, getpixel img (x, y) ≠ Some (0, 255, 0, 255).
Proof.
  assert (Hpts : points 22 = [(11, 5); (17, 11); (11, 17); (5, 11)])
    by (vm_compute; reflexivity).
  exists (blank 22), (paint (polygon_mask (points 22)) white (blank 22)).
  split; [reflexivity|]. split; [exact Hpts|].
  split; [rewrite <- Hpts; reflexivity|].
  assert (Himg := create_diamond_plain 22 ltac:(lia)).
  split; [exact Himg|]. split; [reflexivity|].
  split; [apply wf_paint, wf_replicate|].
  intros x y Hg.
  destruct (create_diamond_inbounds _ _ _ _ _ _ Himg Hg) as [Hx Hy].
  rewrite (create_diamond_pixel _ _ _ _ _ Himg Hx Hy) in Hg. simpl in Hg.
  destruct (polygon_mask _ _); discriminate.
Qed.


(** C7: for every [size >= 10] the badge's bounding box, from
    [(size - dot_margin - dot_size, size - dot_margin - dot_size)] to
    [(size - dot_margin, size - dot_margin)], lies within
    [[0, size) x [0, size)]. *)
Theorem C7_badge_box_in_canvas (size : Z) :
  10 ≤ size →
  let dm := Z.max 2 (size / 10) in
  let ds := Z.max 3 (size / 6) in
  dot_pos size = [size - dm - ds; size - dm - ds; size - dm; size - dm] ∧
  0 ≤ size - dm - ds ∧ size - dm - ds ≤ size - dm ∧ size - dm < size ∧
  ∀ x y, in_badge_box size (x, y) → 0 ≤ x < size ∧ 0 ≤ y < size.
Proof.
  intros Hsize dm ds.
  pose proof (dot_box_inside size Hsize) as Hlo.
  pose proof (dot_bounds size) as [Hm Hs].
  unfold in_badge_box. unfold dot_margin, dot_size in *. fold dm ds in Hlo, Hm, Hs |- *.
  split; [reflexivity|].
  split; [lia|]. split; [lia|]. split; [lia|].
  intros x y [Hx Hy]. cbn [fst snd] in Hx, Hy. lia.
Qed.

(** Under the allocation that grants every request, [create_diamond_on]
    is [create_diamond]. *)
Lemma create_diamond_on_Image_new (size : Z) (has_dot : bool) :
  create_diamond_on Image_new size has_dot = create_diamond size has_dot.
Proof. reflexivity. Qed.

(** C9, as amended: for every positive [size] and either value of
    [has_dot], [create_diamond] raises nothing of its own.  When the
    allocation of the canvas succeeds it returns an RGBA canvas of [size]
    rows of [size] pixels, also for [size < 4] and when the badge's box
    reaches outside the canvas: nothing exists outside these bounds, so
    whatever part of a shape falls off the canvas is dropped.  When the
    allocation is refused, a side beyond the C [int] range with
    [OverflowError] and a request the machine has no memory for with
    [MemoryError], that exception is the result. *)
Theorem C9_create_diamond_allocated (grant : Z * Z → bool) (size : Z)
    (has_dot : bool) :
  0 < size →
  (size ≤ c_int_max → grant (size, size) = true →
   ∃ img, create_diamond_on (Image_new_on grant) size has_dot = Ok img ∧
          im_mode img = "RGBA" ∧ im_size img = (size, size) ∧
          length (im_data img) = Z.to_nat size ∧
          Forall (λ row, length row = Z.to_nat size) (im_data img) ∧
          ∀ x y, is_Some (getpixel img (x, y)) ↔ 0 ≤ x < size ∧ 0 ≤ y < size) ∧
  (c_int_max < size →
   create_diamond_on (Image_new_on grant) size has_dot = Raise OverflowError) ∧
  (size ≤ c_int_max → grant (size, size) = false →
   create_diamond_on (Image_new_on grant) size has_dot = Raise MemoryError).
Proof.
  intros Hsize.
  assert (Hneg : (size <? 0) = false) by (apply Z.ltb_ge; lia).
  split; [|split].
  - intros Hfit Hgrant.
    assert (Hnew : Image_new_on grant "RGBA" (size, size) (0, 0, 0, 0)
                   = Image_new "RGBA" (size, size) (0, 0, 0, 0)).
    { unfold Image_new_on. rewrite Hneg, Hgrant.
      destruct (c_int_max <? size) eqn:E; [apply Z.ltb_lt in E; lia|].
      reflexivity. }
    assert (Hsame : create_diamond_on (Image_new_on grant) size has_dot
                    = create_diamond size has_dot).
    { unfold create_diamond_on, create_diamond. rewrite Hnew. reflexivity. }
    rewrite Hsame.
    destruct (create_diamond_ok size has_dot) as (img & Himg & Hm & Hsz & Hwf);
      [lia|].
    exists img. split; [exact Himg|]. split; [exact Hm|]. split; [exact Hsz|].
    destruct Hwf as [Hlen Hrows].
    rewrite Hsz in Hlen, Hrows. cbn [fst snd] in Hlen, Hrows.
    split; [exact Hlen|]. split; [exact Hrows|].
    intros x y. split.
    + intros [c Hc]. eapply create_diamond_inbounds; eauto.
    + intros [Hx Hy].
      rewrite (create_diamond_pixel size has_dot img x y Himg Hx Hy). eauto.
  - intros Hbig. unfold create_diamond_on, Image_new_on. rewrite Hneg.
    destruct (c_int_max <? size) eqn:E; [reflexivity|].
    apply Z.ltb_ge in E. lia.
  - intros Hfit Hgrant. unfold create_diamond_on, Image_new_on.
    rewrite Hneg, Hgrant.
    destruct (c_int_max <? size) eqn:E; [apply Z.ltb_lt in E; lia|].
    reflexivity.
Qed.

(** C10: every pixel of a canvas returned by [create_diamond] is fully
    transparent (0,0,0,0), opaque white (255,255,255,255) or opaque green
    (0,255,0,255), and green only when [has_dot] is true. *)
Theorem C10_three_colours (size : Z) (has_dot : bool) (img : Image)
    (x y : Z) (c : Color) :
  create_diamond size has_dot = Ok img →
  getpixel img (x, y) = Some c →
  (c = (0, 0, 0, 0) ∨ c = (255, 255, 255, 255) ∨ c = (0, 255, 0, 255)) ∧
  (c = (0, 255, 0, 255) → has_dot = true).
Proof.
  intros Himg Hc.
  destruct (create_diamond_inbounds _ _ _ _ _ _ Himg Hc) as [Hx Hy].
  rewrite (create_diamond_pixel _ _ _ _ _ Himg Hx Hy) in Hc.
  injection Hc as <-.
  destruct has_dot; simpl.
  - destruct (ellipse_mask _ _); [|destruct (polygon_mask _ _)]; auto.
  - destruct (polygon_mask _ _); split; auto; discriminate.
Qed.

End Claims.

(** ** Geometry of the diamond

    The vertex list of [create_diamond] is a kite with centre column and row
    [c = size / 2] and inset [m = size / 4]. *)

Lemma kite_convex (s m c : Z) :
  0 ≤ m → m ≤ c → c ≤ s - m →
  convex_cw [(c, m); (s - m, c); (c, s - m); (m, c)] = true.
Proof.
  intros Hm Hc Hs.
  unfold convex_cw, edges, side. cbn [zip zip_with app forallb fst snd].
  rewrite !andb_true_iff, !Z.leb_le.
  repeat split; nia.
Qed.




(** ** The exact rasterizer satisfies the three laws *)







Section ShapeClaims.
Context `{R : Rasterizer}.





(** C8: a run of the script from an empty output writes exactly four files,
    in this order: [tray_iconTemplate.png] from [create_diamond 22 False],
    [tray_iconTemplate@2x.png] from [create_diamond 44 False],
    [tray_icon_activeTemplate.png] from [create_diamond 22 True] and
    [tray_icon_activeTemplate@2x.png] from [create_diamond 44 True], RGBA
    images of 22 x 22, 44 x 44, 22 x 22 and 44 x 44 pixels; then it prints
    one line, and that is all it does. *)
Theorem C8_script_outputs :
  ∃ i1 i2 i3 i4 out,
    create_diamond 22 false = Ok i1 ∧ create_diamond 44 false = Ok i2 ∧
    create_diamond 22 true = Ok i3 ∧ create_diamond 44 true = Ok i4 ∧
    script [] = Ok out ∧
    out = [ Saved "tray_iconTemplate.png" i1;
            Saved "tray_iconTemplate@2x.png" i2;
            Saved "tray_icon_activeTemplate.png" i3;
            Saved "tray_icon_activeTemplate@2x.png" i4;
            Printed "Icons generated successfully." ] ∧
    saved_files out = [ ("tray_iconTemplate.png", 22, 22, "RGBA");
                        ("tray_iconTemplate@2x.png", 44, 44, "RGBA");
                        ("tray_icon_activeTemplate.png", 22, 22, "RGBA");
                        ("tray_icon_activeTemplate@2x.png", 44, 44, "RGBA") ] ∧
    printed_lines out = [ "Icons generated successfully." ].
Proof.
  eexists _, _, _, _, _.
  split; [apply create_diamond_plain; lia|].
  split; [apply create_diamond_plain; lia|].
  split; [apply create_diamond_active; lia|].
  split; [apply create_diamond_active; lia|].
  split.
  { unfold script.
    rewrite !create_diamond_plain, !create_diamond_active by lia.
    reflexivity. }
  split; [reflexivity|].
  split; reflexivity.
Qed.

End ShapeClaims.

(** ** The claims at concrete inputs, on the exact rasterizer *)





Lemma C7_badge_box_in_canvas_at_10 :
  10 ≤ 10 ∧ dot_pos 10 = [5; 5; 8; 8] ∧
  ∀ x y, in_badge_box 10 (x, y) → 0 ≤ x < 10 ∧ 0 ≤ y < 10.
Proof.
  split; [lia|].
  destruct (C7_badge_box_in_canvas 10 ltac:(lia)) as (Hpos & _ & _ & _ & Hin).
  split; [exact Hpos|exact Hin].
Defined.

Lemma C9_create_diamond_allocated_at_1 :
  0 < 1 ∧ 1 ≤ c_int_max ∧
  ∃ img, @create_diamond_on exact_raster (Image_new_on (λ _, true)) 1 true
         = Ok img ∧
         im_mode img = "RGBA" ∧ im_size img = (1, 1) ∧
         length (im_data img) = 1%nat.
Proof.
  split; [lia|].
  assert (Hfit : 1 ≤ c_int_max) by (unfold c_int_max; lia).
  split; [exact Hfit|].
  destruct (@C9_create_diamond_allocated exact_raster (λ _, true) 1 true
              ltac:(lia)) as [Hok _].
  destruct (Hok Hfit eq_refl) as (img & Himg & Hm & Hsz & Hlen & _).
  exists img. auto.
Defined.

Lemma C10_three_colours_at_22 :
  ∃ img, @create_diamond exact_raster 22 true = Ok img ∧
         getpixel img (18, 18) = Some green ∧
         (green = (0, 0, 0, 0) ∨ green = (255, 255, 255, 255) ∨
          green = (0, 255, 0, 255)) ∧
         (green = (0, 255, 0, 255) → true = true).
Proof.
  eexists. split; [vm_compute; reflexivity|].
  split; [vm_compute; reflexivity|].
  eapply (@C10_three_colours exact_raster 22 true _ 18 18 green);
    vm_compute; reflexivity.
Defined.

(** ** Where the written scenarios differ from the script *)

(** C3 as written has the right and bottom vertices at (16,11) and (11,16).
    The script computes (17,11) and (11,17); on the exact rasterizer the
    pixel (17,11) is white, outside the box of the written vertices. *)
Lemma C3_vertices_differ :
  points 22 ≠ [(11, 5); (16, 11); (11, 16); (5, 11)] ∧
  ∃ img, @create_diamond exact_raster 22 false = Ok img ∧
         getpixel img (17, 11) = Some white ∧
         in_bbox [(11, 5); (16, 11); (11, 16); (5, 11)] (17, 11) = false.
Proof.
  split; [vm_compute; discriminate|].
  eexists. split; [vm_compute; reflexivity|].
  split; vm_compute; reflexivity.
Qed.


(** C9 as written promises a canvas for every positive size.  A side of
    [2^31] does not fit a C [int]: the allocation refuses it with
    [OverflowError], also on a machine that would grant every request, and
    [create_diamond] returns no canvas. *)
Lemma C9_refused_at_2_31 :
  0 < 2 ^ 31 ∧
  @create_diamond_on exact_raster (Image_new_on (λ _, true)) (2 ^ 31) false
  = Raise OverflowError ∧
  @create_diamond_on exact_raster (Image_new_on (λ _, true)) (2 ^ 31) true
  = Raise OverflowError.
Proof.
  split; [lia|].
  split; reflexivity.
Qed.

(** * Further properties of [create_diamond] *)

(** ** Where the vertices and the badge box fall *)

(** X1: for a positive [size], the four vertices handed to the polygon fill
    are pixel coordinates of the canvas exactly when [size >= 4]; below
    that [margin] is 0 and the right and bottom vertices sit at coordinate
    [size], one past the last pixel. *)
Theorem vertices_in_canvas_iff (size : Z) :
  0 < size →
  Forall (λ p : Point, 0 ≤ p.1 < size ∧ 0 ≤ p.2 < size) (points size)
  ↔ 4 ≤ size.
Proof.
  intros H. unfold points, margin.
  rewrite !Forall_cons, Forall_nil. cbn [fst snd].
  Z.div_mod_to_equations. lia.
Qed.

(** X2: the badge's bounding box lies within the canvas exactly when
    [size >= 5]; for smaller sizes its top-left corner has negative
    coordinates. *)
Theorem badge_box_in_canvas_iff (size : Z) :
  (∀ x y, in_badge_box size (x, y) → 0 ≤ x < size ∧ 0 ≤ y < size)
  ↔ 5 ≤ size.
Proof.
  unfold in_badge_box, dot_margin, dot_size. cbn [fst snd]. split.
  - intros H.
    specialize (H (size - Z.max 2 (size / 10) - Z.max 3 (size / 6))
                  (size - Z.max 2 (size / 10) - Z.max 3 (size / 6))).
    revert H. Z.div_mod_to_equations. lia.
  - intros H x y. Z.div_mod_to_equations. lia.
Qed.

(** X3: the two minimums in the badge's dimensions are in force exactly for
    the small sizes: [dot_size] is 3 when [size < 24] and [dot_margin] is 2
    when [size < 30], and only then. *)
Theorem badge_minimums_iff (size : Z) :
  (dot_size size = 3 ↔ size < 24) ∧ (dot_margin size = 2 ↔ size < 30).
Proof. unfold dot_size, dot_margin. Z.div_mod_to_equations. lia. Qed.

(** X4: the vertices for [2 * size] are the vertices for [size] doubled
    exactly when [size] is a multiple of 4; otherwise floor division makes
    the larger diamond differ from the scaled smaller one. *)
Theorem points_double_iff (size : Z) :
  points (2 * size) = map (λ p : Point, (2 * p.1, 2 * p.2)) (points size)
  ↔ size `mod` 4 = 0.
Proof.
  unfold points, margin. cbn [map fst snd]. split.
  - intros [= H1 H2 _ _ _]. revert H1 H2. Z.div_mod_to_equations. lia.
  - intros H.
    assert (2 * size / 2 = 2 * (size / 2)) as ->
      by (Z.div_mod_to_equations; lia).
    assert (2 * size / 4 = 2 * (size / 4)) as ->
      by (Z.div_mod_to_equations; lia).
    repeat f_equal; lia.
Qed.

(** X5: for every [size >= 0] the vertex list is in convex position,
    clockwise on the screen, with [margin <= size/2 <= size - margin]: the
    polygon is never turned inside out, however small the size. *)
Theorem diamond_never_inverted (size : Z) :
  0 ≤ size →
  convex_cw (points size) = true ∧
  0 ≤ margin size ≤ size / 2 ∧ size / 2 ≤ size - margin size.
Proof.
  intros H. destruct (margin_bounds size H) as (Hm & Hc & Hs).
  split; [apply kite_convex; lia|lia].
Qed.

(** ** The badge against the diamond *)

Lemma kite_beyond_right_bottom (s m c x y : Z) :
  c < s - m → s - m + c < x + y →
  inside_closed [(c, m); (s - m, c); (c, s - m); (m, c)] (x, y) = false.
Proof.
  intros Hk Hxy. unfold inside_closed.
  apply andb_false_iff. right.
  unfold edges, side. cbn [zip zip_with app forallb fst snd].
  apply andb_false_iff. right. apply andb_false_iff. left.
  apply Z.leb_gt.
  assert (0 < (s - m - c) * (x + y - (s - m + c))) by nia. lia.
Qed.

Lemma badge_beyond_diamond (size x y : Z) :
  15 ≤ size → in_badge_box size (x, y) →
  size - margin size + size / 2 < x + y.
Proof.
  unfold in_badge_box, dot_margin, dot_size, margin. cbn [fst snd].
  intros H [Hx Hy]. revert Hx Hy. Z.div_mod_to_equations. lia.
Qed.

Ltac overlap_at x y :=
  exists x, y; split;
  [ unfold in_badge_box, dot_margin, dot_size; cbn [fst snd];
    Z.div_mod_to_equations; lia
  | vm_compute; reflexivity ].

Ltac no_overlap_small :=
  let x := fresh "x" in let y := fresh "y" in
  let Hx := fresh "Hx" in let Hy := fresh "Hy" in let Hin := fresh "Hin" in
  intros (x & y & [Hx Hy] & Hin);
  unfold in_badge_box, dot_margin, dot_size in Hx, Hy; cbn [fst snd] in Hx, Hy;
  unfold inside_closed, in_bbox, points, margin, edges, side in Hin;
  cbn [zip zip_with app forallb existsb fst snd] in Hin;
  rewrite ?andb_true_iff, ?orb_true_iff, ?Z.leb_le in Hin;
  revert Hx Hy Hin; Z.div_mod_to_equations; lia.

(** X6: for [size >= 0], some point of the badge's bounding box lies in the
    diamond's closed region exactly when [3 <= size < 15]; from size 15 on,
    so at 22 and 44, the whole box is beyond the diamond's edge from right
    to bottom. *)
Theorem badge_meets_diamond_iff (size : Z) :
  0 ≤ size →
  (∃ x y, in_badge_box size (x, y) ∧ inside_closed (points size) (x, y) = true)
  ↔ 3 ≤ size < 15.
Proof.
  intros Hsize. split.
  - intros Hex.
    destruct (Z.lt_ge_cases size 15) as [Hlt|Hge].
    + split; [|lia].
      destruct (Z.lt_ge_cases size 3) as [Hsmall|]; [exfalso|lia].
      assert (size = 0 ∨ size = 1 ∨ size = 2) as [-> | [-> | ->]] by lia;
        revert Hex; no_overlap_small.
    + exfalso. destruct Hex as (x & y & Hbox & Hin).
      pose proof (badge_beyond_diamond size x y Hge Hbox) as Hfar.
      destruct (margin_bounds size Hsize) as (Hm & Hc & Hs).
      pose proof (margin_pos size ltac:(lia)) as Hm1.
      unfold points in Hin.
      rewrite kite_beyond_right_bottom in Hin; [discriminate|lia|exact Hfar].
  - intros H.
    assert (size = 3 ∨ size = 4 ∨ size = 5 ∨ size = 6 ∨ size = 7 ∨ size = 8 ∨
            size = 9 ∨ size = 10 ∨ size = 11 ∨ size = 12 ∨ size = 13 ∨
            size = 14) as Hcases by lia.
    destruct Hcases as [-> | [-> | [-> | [-> | [-> | [-> | [-> | [-> | [-> |
      [-> | [-> | ->]]]]]]]]]]].
    + overlap_at 0 1.
    + overlap_at 1 2.
    + overlap_at 1 2.
    + overlap_at 1 3.
    + overlap_at 2 2.
    + overlap_at 3 3.
    + overlap_at 4 4.
    + overlap_at 5 5.
    + overlap_at 6 6.
    + overlap_at 7 7.
    + overlap_at 8 8.
    + overlap_at 9 9.
Qed.




(** ** Pixels of the rendered canvases *)


Section PixelProperties.
Context `{R : Rasterizer}.




End PixelProperties.

(** ** The further properties at concrete inputs *)

Lemma vertices_in_canvas_iff_at_22 :
  0 < 22 ∧ Forall (λ p : Point, 0 ≤ p.1 < 22 ∧ 0 ≤ p.2 < 22) (points 22).
Proof.
  split; [lia|].
  apply (vertices_in_canvas_iff 22); lia.
Defined.

Lemma diamond_never_inverted_at_1 :
  0 ≤ 1 ∧ convex_cw (points 1) = true.
Proof.
  split; [lia|].
  apply (diamond_never_inverted 1). lia.
Defined.

Lemma badge_meets_diamond_iff_at_4 :
  0 ≤ 4 ∧
  ∃ x y, in_badge_box 4 (x, y) ∧ inside_closed (points 4) (x, y) = true.
Proof.
  split; [lia|].
  apply (badge_meets_diamond_iff 4); lia.
Defined.



